(** * chipseqpeaks: the peak-calling orchestrator

    A shallow embedding of [chipseqpeaks.py] (class [ChIPSeqPeaks] and the
    functions [parse_input] and [bedtools_intersect]) together with the
    properties stated about it.

    The orchestrator is plumbing around external programs, so the embedding
    is a state-and-exception monad over
    - the object ([self]): its typed attributes and the named byte buffers
      that [setattr] adds to it, and
    - the operating system: the regular files by path and the command lines
      launched so far.
    The external programs (MACS2, bedtools) and the names that [tempfile]
    picks are parameters of the development. *)

From Stdlib Require Import ZArith String Ascii List Bool DecimalString.
From stdpp Require Import base option list gmap strings.

Local Open Scope string_scope.
Local Open Scope Z_scope.

(** ** Python values *)

Abbreviation bytes := (list Byte.byte).

(** A Python [float].  The module applies nothing but [str()] to the two
    floats it holds ([qvalue], [broad_cutoff]), so a float is carried with
    its decimal rendering. *)
Record float := Float { float_repr : string }.

(** The dynamically typed values that reach the constructor and the
    argument tuple of [subprocess.call]. *)
#[warnings="-register-all"]
Inductive pyval :=
| PyNone
| PyBool (b : bool)
| PyInt (z : Z)
| PyStr (s : string)
| PyBytes (b : bytes)
| PyTuple (items : list pyval).

(** Truth value testing ([not x], [if x], [bool(x)]). *)
Definition truthy (v : pyval) : bool :=
  match v with
  | PyNone => false
  | PyBool b => b
  | PyInt z => negb (z =? 0)
  | PyStr s => negb (String.eqb s EmptyString)
  | PyBytes b => match b with [] => false | _ => true end
  | PyTuple items => match items with [] => false | _ => true end
  end.

Definition isinstance_bytes (v : pyval) : bool :=
  match v with PyBytes _ => true | _ => false end.

Definition isinstance_str (v : pyval) : bool :=
  match v with PyStr _ => true | _ => false end.

(** [str()] of an [int] and of a [float]. *)
Definition str_int (z : Z) : string := NilZero.string_of_int (Z.to_int z).
Definition str_float (f : float) : string := float_repr f.

(** ** Exceptions *)

Inductive exn :=
| MissingMACS2Error
| BadInputError
| TypeError
| AttributeError
| OSError.

#[global] Instance exn_eq_dec : EqDecision exn.
Proof. solve_decision. Defined.

(** The two exception classes the module defines for its users. *)
Definition documented (e : exn) : bool :=
  match e with
  | MissingMACS2Error | BadInputError => true
  | _ => false
  end.

Inductive result (A : Type) :=
| Ok (a : A)
| Raise (e : exn).
Arguments Ok {A} a.
Arguments Raise {A} e.

Definition rbind {A B} (r : result A) (k : A -> result B) : result B :=
  match r with
  | Ok a => k a
  | Raise e => Raise e
  end.

Declare Scope py_scope.
Delimit Scope py_scope with py.

Notation "x <-? c1 ;; c2" := (rbind c1 (fun x => c2))
  (at level 100, c1 at next level, right associativity) : py_scope.

Local Open Scope py_scope.

(** ** Sequence arithmetic

    [*] and [+] on the operands the module gives them.  The left operand
    of [*] is a [bool] throughout: times a tuple or a [str] it repeats it
    once or not at all.  [+] joins two tuples or two strings and is a
    [TypeError] on a tuple and a [str]. *)
Definition py_mul (a b : pyval) : result pyval :=
  match a, b with
  | PyBool n, PyTuple t => Ok (PyTuple (if n then t else []))
  | PyBool n, PyStr s => Ok (PyStr (if n then s else EmptyString))
  | PyBool n, PyBytes s => Ok (PyBytes (if n then s else []))
  | PyBool n, PyInt z => Ok (PyInt (if n then z else 0))
  | PyInt n, PyInt z => Ok (PyInt (n * z))
  | _, _ => Raise TypeError
  end.

Definition py_add (a b : pyval) : result pyval :=
  match a, b with
  | PyTuple x, PyTuple y => Ok (PyTuple (x ++ y))
  | PyStr x, PyStr y => Ok (PyStr (x +:+ y))
  | PyBytes x, PyBytes y => Ok (PyBytes (x ++ y))
  | PyInt x, PyInt y => Ok (PyInt (x + y))
  | _, _ => Raise TypeError
  end.

(** On lists of strings ([output_extensions]) the same two operations are
    well typed. *)
Definition bool_mul_list {A} (n : bool) (l : list A) : list A :=
  if n then l else [].

(** ** Strings and paths *)

(** [s.replace('.', '_')] *)
Fixpoint replace_dot (s : string) : string :=
  match s with
  | EmptyString => EmptyString
  | String c rest =>
      String (if Ascii.eqb c "." then "_"%char else c) (replace_dot rest)
  end.

(** ['{}_{}'.format(a, b)] for two strings. *)
Definition format_under (a b : string) : string := a +:+ "_" +:+ b.

(** [str()] of the [cleanup_prefix] attribute, which is [None] until
    [write] has run. *)
Definition str_prefix (p : option string) : string :=
  match p with
  | Some s => s
  | None => "None"
  end.

(** [os.path.basename]: what follows the last separator. *)
Fixpoint basename_from {A} (is_sep : A -> bool) (acc l : list A) : list A :=
  match l with
  | [] => acc
  | c :: rest =>
      if is_sep c then basename_from is_sep [] rest
      else basename_from is_sep (acc ++ [c]) rest
  end.

Definition basename_str (s : string) : string :=
  string_of_list_ascii
    (basename_from (fun c => Ascii.eqb c "/") [] (list_ascii_of_string s)).

Definition basename_bytes (b : bytes) : bytes :=
  basename_from (fun c => Byte.eqb c Byte.x2f) [] b.

Definition basename (v : pyval) : result pyval :=
  match v with
  | PyStr s => Ok (PyStr (basename_str s))
  | PyBytes b => Ok (PyBytes (basename_bytes b))
  | _ => Raise TypeError
  end.

(** [path.startswith(d + '/')] *)
Definition inside (d path : string) : bool :=
  String.prefix (d +:+ "/") path.

(** ** The object and the operating system *)

(** An instance of [ChIPSeqPeaks]: the attributes that [__init__] sets,
    typed as the class documents them, and [buffers], the attributes that
    [setattr] adds under the name of an output extension. *)
Record ChIPSeqPeaks := Peaks {
  treatment_bam : bytes;
  macs2_path : pyval;
  control_bam : option bytes;
  qvalue : float;
  nomodel : bool;
  shift : Z;
  broad : bool;
  broad_cutoff : float;
  nolambda : bool;
  call_summits : bool;
  cleans_up : bool;
  cleanup_prefix : option string;
  log : option string;
  output_extensions : list string;
  buffers : gmap string bytes
}.

Definition set_treatment_bam (v : bytes) (s : ChIPSeqPeaks) : ChIPSeqPeaks :=
  Peaks v (macs2_path s) (control_bam s) (qvalue s) (nomodel s) (shift s)
    (broad s) (broad_cutoff s) (nolambda s) (call_summits s) (cleans_up s)
    (cleanup_prefix s) (log s) (output_extensions s) (buffers s).

Definition set_control_bam (v : option bytes) (s : ChIPSeqPeaks) : ChIPSeqPeaks :=
  Peaks (treatment_bam s) (macs2_path s) v (qvalue s) (nomodel s) (shift s)
    (broad s) (broad_cutoff s) (nolambda s) (call_summits s) (cleans_up s)
    (cleanup_prefix s) (log s) (output_extensions s) (buffers s).

Definition set_cleans_up (v : bool) (s : ChIPSeqPeaks) : ChIPSeqPeaks :=
  Peaks (treatment_bam s) (macs2_path s) (control_bam s) (qvalue s) (nomodel s)
    (shift s) (broad s) (broad_cutoff s) (nolambda s) (call_summits s) v
    (cleanup_prefix s) (log s) (output_extensions s) (buffers s).

Definition set_cleanup_prefix (v : option string) (s : ChIPSeqPeaks) : ChIPSeqPeaks :=
  Peaks (treatment_bam s) (macs2_path s) (control_bam s) (qvalue s) (nomodel s)
    (shift s) (broad s) (broad_cutoff s) (nolambda s) (call_summits s)
    (cleans_up s) v (log s) (output_extensions s) (buffers s).

Definition set_output_extensions (v : list string) (s : ChIPSeqPeaks) : ChIPSeqPeaks :=
  Peaks (treatment_bam s) (macs2_path s) (control_bam s) (qvalue s) (nomodel s)
    (shift s) (broad s) (broad_cutoff s) (nolambda s) (call_summits s)
    (cleans_up s) (cleanup_prefix s) (log s) v (buffers s).

Definition set_buffers (v : gmap string bytes) (s : ChIPSeqPeaks) : ChIPSeqPeaks :=
  Peaks (treatment_bam s) (macs2_path s) (control_bam s) (qvalue s) (nomodel s)
    (shift s) (broad s) (broad_cutoff s) (nolambda s) (call_summits s)
    (cleans_up s) (cleanup_prefix s) (log s) (output_extensions s) v.

(** The operating system as the module sees it: the regular files, by
    path, and the command lines launched so far, oldest first. *)
Record world := World {
  files : gmap string bytes;
  spawned : list (list pyval)
}.

Record state := State {
  self : ChIPSeqPeaks;
  os : world
}.

(** What a finished child process leaves behind. *)
Record process := Process {
  returncode : Z;
  stdout : bytes;
  files_after : gmap string bytes
}.

(** ** The monad of methods

    A method runs on the object and the operating system and returns or
    raises; what it changed before raising stays changed. *)
Definition M (A : Type) : Type := state -> result A * state.

Definition ret {A} (a : A) : M A := fun st => (Ok a, st).

Definition raise {A} (e : exn) : M A := fun st => (Raise e, st).

Definition bind {A B} (m : M A) (k : A -> M B) : M B :=
  fun st =>
    match m st with
    | (Ok a, st') => k a st'
    | (Raise e, st') => (Raise e, st')
    end.

Notation "x <- c1 ;; c2" := (bind c1 (fun x => c2))
  (at level 100, c1 at next level, right associativity) : py_scope.
Notation "c1 ;; c2" := (bind c1 (fun _ => c2))
  (at level 100, right associativity) : py_scope.

Definition lift {A} (r : result A) : M A := fun st => (r, st).

Definition get_self : M ChIPSeqPeaks := fun st => (Ok (self st), st).

Definition get_files : M (gmap string bytes) :=
  fun st => (Ok (files (os st)), st).

Definition modify_self (f : ChIPSeqPeaks -> ChIPSeqPeaks) : M unit :=
  fun st => (Ok tt, State (f (self st)) (os st)).

Definition modify_files (f : gmap string bytes -> gmap string bytes) : M unit :=
  fun st =>
    (Ok tt, State (self st) (World (f (files (os st))) (spawned (os st)))).

(** [for x in l: body] *)
Fixpoint for_each {A} (l : list A) (body : A -> M unit) : M unit :=
  match l with
  | [] => ret tt
  | x :: rest => body x ;; for_each rest body
  end.

(** [try: body finally: release], the shape of leaving a [with] block. *)
Definition finally {A} (body : M A) (release : M unit) : M A :=
  fun st =>
    let '(r, st1) := body st in
    let '(_, st2) := release st1 in
    (r, st2).

(** ** Attributes by name *)

(** The attributes of an instance that never hold [bytes]. *)
Definition other_attributes : list string :=
  ["macs2_path"; "qvalue"; "nomodel"; "shift"; "broad"; "broad_cutoff";
   "nolambda"; "call_summits"; "cleans_up"; "cleanup_prefix"; "log";
   "output_extensions"].

(** [getattr(self, name)] where [bytes] are needed: the two BAM attributes,
    then the buffers; the value of another attribute is no [bytes]
    ([TypeError] at its use), and a name that is not set is an
    [AttributeError]. *)
Definition getattr (name : string) : M bytes :=
  fun st =>
    let s := self st in
    if String.eqb name "treatment_bam" then (Ok (treatment_bam s), st)
    else if String.eqb name "control_bam" then
      match control_bam s with
      | Some b => (Ok b, st)
      | None => (Raise TypeError, st)
      end
    else if existsb (String.eqb name) other_attributes then (Raise TypeError, st)
    else
      match buffers s !! name with
      | Some b => (Ok b, st)
      | None => (Raise AttributeError, st)
      end.

(** [setattr(self, name, value)] for a [bytes] value. *)
Definition setattr (name : string) (value : bytes) : M unit :=
  modify_self (fun s =>
    if String.eqb name "treatment_bam" then set_treatment_bam value s
    else if String.eqb name "control_bam" then set_control_bam (Some value) s
    else set_buffers (<[name := value]> (buffers s)) s).

(** ** Files *)

(** [f.write(data)] on a file opened for writing: the data goes to the end
    of what the file holds (buffering is not modelled). *)
Definition file_write (path : string) (data : bytes) : M unit :=
  modify_files (fun fs => <[path := (default [] (fs !! path) ++ data)%list]> fs).

(** [open(path, 'wb')]: the file is created, or emptied. *)
Definition open_wb (path : string) : M unit :=
  modify_files (fun fs => <[path := []]> fs).

(** [os.path.isfile(path)] *)
Definition isfile (path : string) : M bool :=
  fs <- get_files ;; ret (bool_decide (is_Some (fs !! path))).

(** [os.remove(path)] of a file that is there. *)
Definition os_remove (path : string) : M unit :=
  modify_files (fun fs => delete path fs).

(** Removal of a directory with all it holds. *)
Definition rmtree (d : string) : M unit :=
  modify_files (fun fs =>
    filter (fun kv : string * bytes => inside d kv.1 = false) fs).

(** [cat path], its standard output collected: the file, or nothing when
    there is no such file. *)
Definition cat (path : string) : M bytes :=
  fun st =>
    (Ok (default [] (files (os st) !! path)),
     State (self st)
       (World (files (os st)) (spawned (os st) ++ [[PyStr "cat"; PyStr path]]))).

(** A command line is a sequence of [str] and [bytes]. *)
Definition argv_of (args : pyval) : result (list pyval) :=
  match args with
  | PyTuple items =>
      if forallb (fun v => isinstance_str v || isinstance_bytes v) items
      then Ok items
      else Raise TypeError
  | _ => Raise TypeError
  end.

Section Orchestrator.

(** The external programs: from the command line, the standard input, the
    file that receives the diagnostics and the files, what the finished
    process leaves. *)
Variable external :
  list pyval -> bytes -> option string -> gmap string bytes -> process.

(** The name [tempfile] picks for a new entry of a directory. *)
Variable tempname : option string -> gmap string bytes -> string.

(** [subprocess.Popen(args, stdin=..., stderr=log)] run to its end. *)
Definition run (args : pyval) (input : bytes) (stderr : option string)
  : M process :=
  argv <- lift (argv_of args) ;;
  fun st =>
    let p := external argv input stderr (files (os st)) in
    (Ok p, State (self st) (World (files_after p) (spawned (os st) ++ [argv]))).

(** [subprocess.call(args, stderr=log)]: the exit status. *)
Definition subprocess_call (args : pyval) (stderr : option string) : M Z :=
  p <- run args [] stderr ;; ret (returncode p).

(** [with tempfile.NamedTemporaryFile(dir=dir) as f: body], [body] given
    [f.name]. *)
Definition NamedTemporaryFile {A} (dir : option string) (body : string -> M A)
  : M A :=
  fs <- get_files ;;
  let name := tempname dir fs in
  open_wb name ;;
  finally (body name) (os_remove name).

(** [with tempfile.TemporaryDirectory(dir=dir) as name: body] *)
Definition TemporaryDirectory {A} (dir : option string) (body : string -> M A)
  : M A :=
  fs <- get_files ;;
  let name := tempname dir fs in
  finally (body name) (rmtree name).

(** ** [parse_input] *)

Definition parse_input (input_file : pyval) (w : world) : result bytes :=
  if isinstance_bytes input_file then
    match input_file with PyBytes b => Ok b | _ => Raise TypeError end
  else if isinstance_str input_file then
    match input_file with
    | PyStr path =>
        match files w !! path with
        | Some b => Ok b
        | None => Raise OSError
        end
    | _ => Raise TypeError
    end
  else Raise BadInputError.

(** ** [bedtools_intersect]

    The source lacks the comma between [blacklist_path] and ['-v'];
    the two are read as the two arguments they are meant to be. *)
Definition bedtools_intersect (peaks : bytes) (blacklist_path : string)
    (log : option string) : M bytes :=
  p <- run (PyTuple [PyStr "bedtools"; PyStr "intersect";
                     PyStr "-a"; PyStr "stdin";
                     PyStr "-b"; PyStr blacklist_path;
                     PyStr "-v"]) peaks log ;;
  ret (stdout p).

(** ** [ChIPSeqPeaks.call_peaks] *)

(** [bool(self.control_bam)] *)
Definition has_control (s : ChIPSeqPeaks) : bool :=
  match control_bam s with
  | Some (_ :: _) => true
  | _ => false
  end.

(** The operands of the argument expression, in the order of the source. *)
Definition callpeak_base (s : ChIPSeqPeaks) (sample_name : pyval)
    (treatment_name : string) : pyval :=
  PyTuple [macs2_path s; PyStr "callpeak";
           PyStr "-B";
           PyStr "--extsize"; PyStr "200";
           PyStr "--keep-dup"; PyStr "all";
           PyStr "--treatment"; PyStr treatment_name;
           PyStr "--name"; sample_name;
           PyStr "--qvalue"; PyStr (str_float (qvalue s));
           PyStr "--shift"; PyStr (str_int (shift s))].

Definition control_args (s : ChIPSeqPeaks) (control_name : string)
  : result pyval :=
  py_mul (PyBool (has_control s))
         (PyTuple [PyStr "--control"; PyStr control_name]).

Definition nomodel_args (s : ChIPSeqPeaks) : result pyval :=
  py_mul (PyBool (nomodel s)) (PyTuple [PyStr "--nomodel"]).

Definition broad_args (s : ChIPSeqPeaks) : result pyval :=
  py_mul (PyBool (broad s))
         (PyTuple [PyStr "--broad";
                   PyStr "--broad-cutoff"; PyStr (str_float (broad_cutoff s))]).

(** [('--nolambda')] and [('--call-summits')] are parenthesised strings:
    no comma, no tuple. *)
Definition nolambda_args (s : ChIPSeqPeaks) : result pyval :=
  py_mul (PyBool (nolambda s)) (PyStr "--nolambda").

Definition call_summits_args (s : ChIPSeqPeaks) : result pyval :=
  py_mul (PyBool (call_summits s)) (PyStr "--call-summits").

(** The first argument of [subprocess.call] in [call_peaks]. *)
Definition callpeak_args (s : ChIPSeqPeaks) (sample_name : pyval)
    (treatment_name control_name : string) : result pyval :=
  c <-? control_args s control_name ;;
  t1 <-? py_add (callpeak_base s sample_name treatment_name) c ;;
  n <-? nomodel_args s ;;
  t2 <-? py_add t1 n ;;
  b <-? broad_args s ;;
  t3 <-? py_add t2 b ;;
  l <-? nolambda_args s ;;
  t4 <-? py_add t3 l ;;
  u <-? call_summits_args s ;;
  py_add t4 u.

Definition call_peaks (sample_name : pyval) (temp_file_dir : option string)
  : M unit :=
  NamedTemporaryFile temp_file_dir (fun temp_treatment_bam =>
  NamedTemporaryFile temp_file_dir (fun temp_control_bam =>
  TemporaryDirectory temp_file_dir (fun temp_dir_name =>
    s <- get_self ;;
    file_write temp_treatment_bam (treatment_bam s) ;;
    (if has_control s
     then file_write temp_control_bam (default [] (control_bam s))
     else ret tt) ;;
    temp_name <- NamedTemporaryFile (Some temp_dir_name) (fun temp => ret temp) ;;
    args <- lift (callpeak_args s sample_name
                    temp_treatment_bam temp_control_bam) ;;
    subprocess_call args (log s) ;;
    for_each (output_extensions s) (fun ext =>
      output_file <- cat (format_under temp_name ext) ;;
      setattr (replace_dot ext) output_file)))).

(** ** [ChIPSeqPeaks.bdgcmp] *)

Definition bdgcmp : M unit :=
  modify_self (fun s =>
    set_output_extensions (output_extensions s ++ ["ppois.bdg"]) s) ;;
  NamedTemporaryFile None (fun temp_treat_pileup =>
  NamedTemporaryFile None (fun temp_control_lambda =>
  TemporaryDirectory None (fun temp_dir_name =>
    treat_pileup_bdg <- getattr "treat_pileup_bdg" ;;
    file_write temp_treat_pileup treat_pileup_bdg ;;
    control_lambda_bdg <- getattr "control_lambda_bdg" ;;
    file_write temp_control_lambda control_lambda_bdg ;;
    temp_name <- NamedTemporaryFile (Some temp_dir_name) (fun temp => ret temp) ;;
    s <- get_self ;;
    subprocess_call
      (PyTuple [macs2_path s; PyStr "bdgcmp";
                PyStr "-t"; PyStr temp_treat_pileup;
                PyStr "-c"; PyStr temp_control_lambda;
                PyStr "-m"; PyStr "ppois";
                PyStr "--o-prefix"; PyStr temp_name;
                PyStr "-p"; PyStr "0.00001"])
      (log s) ;;
    ppois_bdg <- cat (format_under temp_name "ppois.bdg") ;;
    setattr "ppois_bdg" ppois_bdg))).

(** ** [ChIPSeqPeaks.remove_blacklisted_peaks]

    The loop binds [peaks] to each buffer in turn and rebinds it to the
    filtered bytes; the name is local to the method. *)
Definition remove_blacklisted_peaks (blacklist_path : string) : M unit :=
  peaks_narrowPeak <- getattr "peaks_narrowPeak" ;;
  s <- get_self ;;
  more <- (if broad s
           then peaks_broadPeak <- getattr "peaks_broadPeak" ;;
                peaks_gappedPeak <- getattr "peaks_gappedPeak" ;;
                ret [peaks_broadPeak; peaks_gappedPeak]
           else ret []) ;;
  for_each ([peaks_narrowPeak] ++ more) (fun peaks =>
    peaks <- bedtools_intersect peaks blacklist_path (log s) ;;
    ret tt).

(** ** [ChIPSeqPeaks.write], [clean_up], [__enter__], [__exit__] *)

(** The body of the loop of [write]: the file is opened, the attribute is
    read, the buffer is written. *)
Definition write_one (prefix ext : string) : M unit :=
  let f := format_under prefix ext in
  open_wb f ;;
  data <- getattr (replace_dot ext) ;;
  file_write f data.

Definition write (prefix : string) (extensions : list string) : M unit :=
  s <- get_self ;;
  for_each (match extensions with [] => output_extensions s | _ => extensions end)
    (write_one prefix) ;;
  modify_self (set_cleanup_prefix (Some prefix)).

Definition clean_up (path : string) : M unit :=
  there <- (if negb (String.eqb path EmptyString) then isfile path else ret false) ;;
  if there then os_remove path else ret tt.

Definition __enter__ : M unit :=
  modify_self (set_cleans_up true).

(** The body of the loop of [__exit__]. *)
Definition exit_one (ext : string) : M unit :=
  s <- get_self ;;
  clean_up (format_under (str_prefix (cleanup_prefix s)) ext).

Definition __exit__ : M bool :=
  s <- get_self ;;
  (if cleans_up s then for_each (output_extensions s) exit_one else ret tt) ;;
  ret false.

(** ** [ChIPSeqPeaks.__init__] *)

(** The arguments of the constructor.  [arg_macs2_path] defaults to the
    module constant [MACS2_PATH], which is the environment variable of that
    name, or the [macs2] found on the [PATH], or [None]. *)
Record arguments := Arguments_ {
  arg_treatment_bam : pyval;
  arg_macs2_path : pyval;
  arg_atac_seq : bool;
  arg_control_bam : pyval;
  arg_qvalue : float;
  arg_nomodel : bool;
  arg_shift : Z;
  arg_broad : bool;
  arg_broad_cutoff : float;
  arg_nolambda : bool;
  arg_call_summits : bool;
  arg_log : option string;
  arg_temp_file_dir : option string
}.

(** A call that passes the treatment and leaves the rest to the defaults
    of the signature. *)
Definition defaults (treatment_bam MACS2_PATH : pyval) : arguments :=
  {| arg_treatment_bam := treatment_bam;
     arg_macs2_path := MACS2_PATH;
     arg_atac_seq := false;
     arg_control_bam := PyNone;
     arg_qvalue := Float "0.05";
     arg_nomodel := false;
     arg_shift := 0;
     arg_broad := false;
     arg_broad_cutoff := Float "0.1";
     arg_nolambda := false;
     arg_call_summits := false;
     arg_log := None;
     arg_temp_file_dir := None |}.

(** The extensions of the files MACS2 is expected to leave. *)
Definition expected_extensions (control_given broad : bool) : list string :=
  ["peaks.xls"; "peaks.narrowPeak"; "summits.bed"; "treat_pileup.bdg"]
  ++ bool_mul_list control_given ["control_lambda.bdg"]
  ++ bool_mul_list broad ["peaks.broadPeak"; "peaks.gappedPeak"].

(** The body of [__init__] up to the call of [call_peaks]: the two checks
    and the attributes. *)
Definition init_attributes (a : arguments) (w : world) : result ChIPSeqPeaks :=
  if negb (truthy (arg_macs2_path a)) then Raise MissingMACS2Error
  else
    treatment <-? parse_input (arg_treatment_bam a) w ;;
    control <-? (if truthy (arg_control_bam a)
                 then b <-? parse_input (arg_control_bam a) w ;; Ok (Some b)
                 else Ok None) ;;
    Ok {| treatment_bam := treatment;
          macs2_path := arg_macs2_path a;
          control_bam := control;
          qvalue := arg_qvalue a;
          nomodel := if arg_atac_seq a && negb (arg_nomodel a)
                     then true else arg_nomodel a;
          shift := if arg_atac_seq a && negb (negb (arg_shift a =? 0))
                   then -100 else arg_shift a;
          broad := arg_broad a;
          broad_cutoff := arg_broad_cutoff a;
          nolambda := arg_nolambda a;
          call_summits := arg_call_summits a;
          cleans_up := false;
          cleanup_prefix := None;
          log := arg_log a;
          output_extensions :=
            expected_extensions (truthy (arg_control_bam a)) (arg_broad a);
          buffers := ∅ |}.

(** The constructor: the instance, or the exception, and the operating
    system afterwards.  The source lacks the comma between the two
    arguments of the call of [call_peaks]; they are read as the two
    arguments they are meant to be. *)
Definition __init__ (a : arguments) (w : world) : result ChIPSeqPeaks * world :=
  match init_attributes a w with
  | Raise e => (Raise e, w)
  | Ok s =>
      match basename (arg_treatment_bam a) with
      | Raise e => (Raise e, w)
      | Ok sample_name =>
          let '(r, st) :=
            call_peaks sample_name (arg_temp_file_dir a) (State s w) in
          (match r with Ok _ => Ok (self st) | Raise e => Raise e end, os st)
      end
  end.

End Orchestrator.

(** An external program that differs from [external] in nothing but the
    exit status of its processes, which is given by [status]. *)
Definition with_status
    (status : list pyval -> Z)
    (external : list pyval -> bytes -> option string -> gmap string bytes -> process)
  : list pyval -> bytes -> option string -> gmap string bytes -> process :=
  fun argv input stderr fs =>
    let p := external argv input stderr fs in
    Process (status argv) (stdout p) (files_after p).

(** [a] with another control input. *)
Definition with_control (control : pyval) (a : arguments) : arguments :=
  Arguments_ (arg_treatment_bam a) (arg_macs2_path a) (arg_atac_seq a) control
    (arg_qvalue a) (arg_nomodel a) (arg_shift a) (arg_broad a)
    (arg_broad_cutoff a) (arg_nolambda a) (arg_call_summits a) (arg_log a)
    (arg_temp_file_dir a).

(** An input that is neither [str] nor [bytes]. *)
Definition bad_input (v : pyval) : bool :=
  negb (isinstance_str v || isinstance_bytes v).

(** The extensions [write] goes through. *)
Definition selected (s : ChIPSeqPeaks) (extensions : list string) : list string :=
  match extensions with
  | [] => output_extensions s
  | _ => extensions
  end.

(** ** Frame conditions

    [keeps f m]: running [m] leaves the observation [f] of the object as
    it was, whether [m] returns or raises. *)
Definition keeps {X A} (f : ChIPSeqPeaks -> X) (m : M A) : Prop :=
  forall st, f (self (snd (m st))) = f (self st).

(** The two inputs as the object holds them. *)
Definition bam_inputs (s : ChIPSeqPeaks) : bytes * option bytes :=
  (treatment_bam s, control_bam s).

(** ** An environment to evaluate in

    An external program that fails with status 1, prints its input and
    touches no file; temporary names numbered by the count of files. *)
Definition demo_external
  : list pyval -> bytes -> option string -> gmap string bytes -> process :=
  fun argv input stderr fs => Process 1 input fs.

Definition demo_tempname : option string -> gmap string bytes -> string :=
  fun dir fs =>
    default "/tmp" dir +:+ "/tmp" +:+ str_int (Z.of_nat (size fs)).

Definition demo_world : world := World ∅ [].

(** An instance as a finished peak calling without control would leave it,
    with one byte in each buffer. *)
Definition demo_peaks : ChIPSeqPeaks :=
  {| treatment_bam := [Byte.x42];
     macs2_path := PyStr "macs2";
     control_bam := None;
     qvalue := Float "0.05";
     nomodel := false;
     shift := 0;
     broad := false;
     broad_cutoff := Float "0.1";
     nolambda := false;
     call_summits := false;
     cleans_up := true;
     cleanup_prefix := None;
     log := None;
     output_extensions := expected_extensions false false;
     buffers := <["peaks_xls" := [Byte.x31]]>
                (<["peaks_narrowPeak" := [Byte.x32]]>
                (<["summits_bed" := [Byte.x33]]>
                (<["treat_pileup_bdg" := [Byte.x34]]> ∅))) |}.

(** The same with the control-lambda track. *)
Definition demo_peaks_control : ChIPSeqPeaks :=
  set_buffers (<["control_lambda_bdg" := [Byte.x35]]> (buffers demo_peaks))
    (set_output_extensions (expected_extensions true false) demo_peaks).

(** Calls of the constructor: the defaults on one byte of treatment; the
    same with the integer zero, and with empty [bytes], for control; the
    same in ATAC-seq mode. *)
Definition demo_arguments : arguments :=
  defaults (PyBytes [Byte.x42]) (PyStr "macs2").

Definition demo_arguments_zero_control : arguments :=
  with_control (PyInt 0) demo_arguments.

Definition demo_arguments_empty_control : arguments :=
  with_control (PyBytes []) demo_arguments.

Definition demo_arguments_atac : arguments :=
  Arguments_ (PyBytes [Byte.x42]) (PyStr "macs2") true PyNone (Float "0.05")
    false 0 false (Float "0.1") false false None None.

(** The attributes these calls set. *)
Definition demo_attributes : ChIPSeqPeaks :=
  {| treatment_bam := [Byte.x42];
     macs2_path := PyStr "macs2";
     control_bam := None;
     qvalue := Float "0.05";
     nomodel := false;
     shift := 0;
     broad := false;
     broad_cutoff := Float "0.1";
     nolambda := false;
     call_summits := false;
     cleans_up := false;
     cleanup_prefix := None;
     log := None;
     output_extensions := expected_extensions false false;
     buffers := ∅ |}.

Definition demo_attributes_atac : ChIPSeqPeaks :=
  {| treatment_bam := [Byte.x42];
     macs2_path := PyStr "macs2";
     control_bam := None;
     qvalue := Float "0.05";
     nomodel := true;
     shift := -100;
     broad := false;
     broad_cutoff := Float "0.1";
     nolambda := false;
     call_summits := false;
     cleans_up := false;
     cleanup_prefix := None;
     log := None;
     output_extensions := expected_extensions false false;
     buffers := ∅ |}.

(** A directory that holds a narrow peak file from before. *)
Definition demo_world_stale : world :=
  World (<["out_peaks.narrowPeak" := [Byte.x41]]> ∅) [].

(** ** The sample name of the command line ([call_peaks.py])

    [s.split('.')[0]]: what precedes the first dot. *)
Fixpoint before_dot (s : string) : string :=
  match s with
  | EmptyString => EmptyString
  | String c rest =>
      if Ascii.eqb c "." then EmptyString else String c (before_dot rest)
  end.

(** The end of [parse_arguments]: a sample name that is not given, or is
    empty, is made of the treatment path. *)
Definition resolve_name (name : option string) (treatment : string) : string :=
  if negb (match name with
           | Some n => negb (String.eqb n EmptyString)
           | None => false
           end)
  then before_dot (basename_str treatment)
  else default EmptyString name.

(** ** The managed context

    [with cp: body] for an instance [cp] at hand: [__enter__], the body,
    and [__exit__] on the way out, also when the body raises; [__exit__]
    returns [False], so an exception of the body goes through. *)
Definition with_context {A} (body : M A) : M A :=
  __enter__ ;; finally body (__exit__ ;; ret tt).

(** [cp.cleans_up = v], as the example of the module docstring does inside
    the [with] block. *)
Definition assign_cleans_up (v : bool) : M unit :=
  modify_self (set_cleans_up v).

(** The command line [bedtools_intersect] launches. *)
Definition bedtools_argv (blacklist_path : string) : list pyval :=
  [PyStr "bedtools"; PyStr "intersect"; PyStr "-a"; PyStr "stdin";
   PyStr "-b"; PyStr blacklist_path; PyStr "-v"].

(** The attribute names of an instance that are not buffers. *)
Definition own_attributes : list string :=
  "treatment_bam" :: "control_bam" :: other_attributes.

(** A directory with an empty control file. *)
Definition demo_world_empty_control : world :=
  World (<["control.bam" := []]> ∅) [].

Definition demo_arguments_file_control : arguments :=
  with_control (PyStr "control.bam") demo_arguments.

Definition demo_attributes_file_control : ChIPSeqPeaks :=
  set_control_bam (Some [])
    (set_output_extensions (expected_extensions true false) demo_attributes).

(** * Properties *)

Create HintDb keeps.

Section Properties.

Variable external :
  list pyval -> bytes -> option string -> gmap string bytes -> process.
Variable tempname : option string -> gmap string bytes -> string.

(** ** The frame rules *)

Section Keeps.
Context {X : Type} (f : ChIPSeqPeaks -> X).

Lemma keeps_ret {A} (a : A) : keeps f (ret a).
Proof. intros st. reflexivity. Qed.

Lemma keeps_raise {A} (e : exn) : keeps f (@raise A e).
Proof. intros st. reflexivity. Qed.

Lemma keeps_lift {A} (r : result A) : keeps f (lift r).
Proof. intros st. reflexivity. Qed.

Lemma keeps_get_self : keeps f get_self.
Proof. intros st. reflexivity. Qed.

Lemma keeps_get_files : keeps f get_files.
Proof. intros st. reflexivity. Qed.

Lemma keeps_modify_files g : keeps f (modify_files g).
Proof. intros st. reflexivity. Qed.

Lemma keeps_modify_self g :
  (forall s, f (g s) = f s) -> keeps f (modify_self g).
Proof. intros H st. apply H. Qed.

Lemma keeps_bind {A B} (m : M A) (k : A -> M B) :
  keeps f m -> (forall a, keeps f (k a)) -> keeps f (bind m k).
Proof.
  intros Hm Hk st. unfold bind.
  specialize (Hm st). destruct (m st) as [[a | e] st']; simpl in *.
  - rewrite Hk. exact Hm.
  - exact Hm.
Qed.

Lemma keeps_finally {A} (body : M A) (release : M unit) :
  keeps f body -> keeps f release -> keeps f (finally body release).
Proof.
  intros Hb Hr st. unfold finally.
  specialize (Hb st). destruct (body st) as [r st1]; simpl in *.
  specialize (Hr st1). destruct (release st1) as [u st2]; simpl in *.
  congruence.
Qed.

Lemma keeps_for_each {A} (l : list A) (body : A -> M unit) :
  (forall x, keeps f (body x)) -> keeps f (for_each l body).
Proof.
  intros Hb. induction l as [| x l IH]; simpl.
  - apply keeps_ret.
  - apply keeps_bind; [apply Hb | intros _; exact IH].
Qed.

Lemma keeps_getattr name : keeps f (getattr name).
Proof.
  intros st. unfold getattr.
  repeat match goal with
         | |- context [if ?b then _ else _] => destruct b
         | |- context [match ?o with Some _ => _ | None => _ end] => destruct o
         end; reflexivity.
Qed.

Lemma keeps_cat path : keeps f (cat path).
Proof. intros st. reflexivity. Qed.

Lemma keeps_run args input stderr : keeps f (run external args input stderr).
Proof.
  unfold run. apply keeps_bind; [apply keeps_lift |].
  intros argv st. reflexivity.
Qed.

End Keeps.

#[local] Hint Resolve keeps_ret keeps_raise keeps_lift keeps_get_self
  keeps_get_files keeps_modify_files keeps_getattr keeps_cat keeps_run
  : keeps.

(** One step of a frame proof: through a bind, a [with] block, a loop or a
    branch. *)
Ltac keeps_step :=
  match goal with
  | |- keeps _ (bind _ _) => apply keeps_bind; [| intros ?]
  | |- keeps _ (finally _ _) => apply keeps_finally
  | |- keeps _ (for_each _ _) => apply keeps_for_each; intros ?
  | |- keeps _ (if ?b then _ else _) => destruct b
  | |- keeps _ _ => solve [auto with keeps]
  end.

Ltac keeps_auto := repeat keeps_step.

Lemma keeps_file_write {X} (f : ChIPSeqPeaks -> X) path data :
  keeps f (file_write path data).
Proof. apply keeps_modify_files. Qed.

Lemma keeps_open_wb {X} (f : ChIPSeqPeaks -> X) path : keeps f (open_wb path).
Proof. apply keeps_modify_files. Qed.

Lemma keeps_os_remove {X} (f : ChIPSeqPeaks -> X) path :
  keeps f (os_remove path).
Proof. apply keeps_modify_files. Qed.

Lemma keeps_rmtree {X} (f : ChIPSeqPeaks -> X) d : keeps f (rmtree d).
Proof. apply keeps_modify_files. Qed.

Lemma keeps_isfile {X} (f : ChIPSeqPeaks -> X) path : keeps f (isfile path).
Proof. unfold isfile. keeps_auto. Qed.

#[local] Hint Resolve keeps_file_write keeps_open_wb keeps_os_remove
  keeps_rmtree keeps_isfile : keeps.

Lemma keeps_subprocess_call {X} (f : ChIPSeqPeaks -> X) args stderr :
  keeps f (subprocess_call external args stderr).
Proof. unfold subprocess_call. keeps_auto. Qed.

Lemma keeps_NamedTemporaryFile {X A} (f : ChIPSeqPeaks -> X) dir
    (body : string -> M A) :
  (forall name, keeps f (body name)) ->
  keeps f (NamedTemporaryFile tempname dir body).
Proof. intros H. unfold NamedTemporaryFile. keeps_auto. Qed.

Lemma keeps_TemporaryDirectory {X A} (f : ChIPSeqPeaks -> X) dir
    (body : string -> M A) :
  (forall name, keeps f (body name)) ->
  keeps f (TemporaryDirectory tempname dir body).
Proof. intros H. unfold TemporaryDirectory. keeps_auto. Qed.

Lemma keeps_bedtools_intersect {X} (f : ChIPSeqPeaks -> X) peaks blacklist log :
  keeps f (bedtools_intersect external peaks blacklist log).
Proof. unfold bedtools_intersect. keeps_auto. Qed.

Lemma keeps_clean_up {X} (f : ChIPSeqPeaks -> X) path : keeps f (clean_up path).
Proof. unfold clean_up. keeps_auto. Qed.

#[local] Hint Resolve keeps_subprocess_call keeps_bedtools_intersect
  keeps_clean_up : keeps.

(** ** Peak calling *)

(** The fourth operand of the argument expression is a [str], whatever
    [nolambda] is. *)
Lemma nolambda_args_str s :
  nolambda_args s = Ok (PyStr (if nolambda s then "--nolambda" else EmptyString)).
Proof. reflexivity. Qed.

(** So the sum of the operands stops at it: a tuple plus a [str]. *)
Lemma callpeak_args_raises s sample_name treatment_name control_name :
  callpeak_args s sample_name treatment_name control_name = Raise TypeError.
Proof.
  unfold callpeak_args, control_args, nomodel_args, broad_args, nolambda_args,
    callpeak_base.
  destruct (has_control s), (nomodel s), (broad s), (nolambda s); reflexivity.
Qed.

(** [call_peaks] raises before it launches anything, and leaves the object
    as it found it. *)
Lemma call_peaks_raises sample_name dir st :
  fst (call_peaks external tempname sample_name dir st) = Raise TypeError
  /\ self (snd (call_peaks external tempname sample_name dir st)) = self st
  /\ spawned (os (snd (call_peaks external tempname sample_name dir st)))
     = spawned (os st).
Proof.
  unfold call_peaks, NamedTemporaryFile, TemporaryDirectory, finally, bind,
    get_files, get_self, open_wb, file_write, os_remove, rmtree, modify_files,
    lift, ret.
  cbn -[callpeak_args has_control].
  destruct (has_control (self st)); cbn -[callpeak_args];
    rewrite callpeak_args_raises; cbn; auto.
Qed.

(** The attributes are set when the two checks pass and the inputs load. *)
Lemma init_attributes_ok a w treatment :
  truthy (arg_macs2_path a) = true ->
  parse_input (arg_treatment_bam a) w = Ok treatment ->
  (truthy (arg_control_bam a) = false
   \/ exists c, parse_input (arg_control_bam a) w = Ok c) ->
  exists s, init_attributes a w = Ok s
            /\ output_extensions s
               = expected_extensions (truthy (arg_control_bam a)) (arg_broad a)
            /\ buffers s = ∅.
Proof.
  intros Hm Ht Hc. unfold init_attributes. rewrite Hm, Ht. simpl.
  destruct Hc as [Hc | [c Hc]].
  - rewrite Hc. simpl. eexists; split; [reflexivity |]. simpl. auto.
  - destruct (truthy (arg_control_bam a)) eqn:E.
    + rewrite Hc. simpl. eexists; split; [reflexivity |]. simpl. auto.
    + simpl. eexists; split; [reflexivity |]. simpl. auto.
Qed.

(** What [parse_input] accepts has a base name. *)
Lemma parse_input_basename v w b :
  parse_input v w = Ok b -> exists n, basename v = Ok n.
Proof.
  destruct v; simpl; try discriminate; eauto.
Qed.

(** Once the attributes are set, the constructor ends in the [TypeError]
    of [call_peaks]. *)
Lemma init_after_attributes a w s :
  init_attributes a w = Ok s ->
  fst (__init__ external tempname a w) = Raise TypeError
  /\ spawned (snd (__init__ external tempname a w)) = spawned w.
Proof.
  intros Hs. unfold __init__. rewrite Hs.
  assert (exists n, basename (arg_treatment_bam a) = Ok n) as [n Hn].
  { unfold init_attributes in Hs.
    destruct (negb (truthy (arg_macs2_path a))); [discriminate |].
    destruct (parse_input (arg_treatment_bam a) w) eqn:E; [| discriminate].
    eapply parse_input_basename; eauto. }
  rewrite Hn.
  destruct (call_peaks_raises n (arg_temp_file_dir a) (State s w))
    as (Hr & _ & Hsp).
  destruct (call_peaks external tempname n (arg_temp_file_dir a) (State s w))
    as [r st]. simpl in *. subst r. auto.
Qed.

(** C1 (the code departs from the claim).  The claim: a construction from
    valid input either raises one of the two documented errors or succeeds
    with exactly the expected named buffers.  The code: whenever the MACS2
    path is given and the inputs load, the list of expected extensions is
    the one the claim describes, but the constructor ends in a [TypeError],
    which is neither documented error, with no process launched and no
    buffer set. *)
Theorem C1_construction_raises_TypeError a w treatment :
  truthy (arg_macs2_path a) = true ->
  parse_input (arg_treatment_bam a) w = Ok treatment ->
  (truthy (arg_control_bam a) = false
   \/ exists c, parse_input (arg_control_bam a) w = Ok c) ->
  (exists s, init_attributes a w = Ok s
             /\ output_extensions s
                = expected_extensions (truthy (arg_control_bam a)) (arg_broad a)
             /\ buffers s = ∅)
  /\ fst (__init__ external tempname a w) = Raise TypeError
  /\ documented TypeError = false
  /\ spawned (snd (__init__ external tempname a w)) = spawned w.
Proof.
  intros Hm Ht Hc.
  destruct (init_attributes_ok a w treatment Hm Ht Hc) as (s & Hs & He & Hb).
  destruct (init_after_attributes a w s Hs) as [Hr Hsp].
  split; [exists s; auto |]. auto.
Qed.

(** C3 (the code departs from the claim).  The claim: the argument list of
    the peak caller carries ['--nolambda'] and ['--call-summits'] exactly
    when the options hold, and the peak caller runs once.  The code: the
    operand for [nolambda] is a [str], the argument expression is a
    [TypeError] for every configuration, and [call_peaks] ends there with
    nothing launched. *)
Theorem C3_argument_list_is_TypeError s sample_name treatment_name control_name
    dir w :
  nolambda_args s = Ok (PyStr (if nolambda s then "--nolambda" else EmptyString))
  /\ callpeak_args s sample_name treatment_name control_name = Raise TypeError
  /\ fst (call_peaks external tempname sample_name dir (State s w))
     = Raise TypeError
  /\ spawned (os (snd (call_peaks external tempname sample_name dir (State s w))))
     = spawned w.
Proof.
  destruct (call_peaks_raises sample_name dir (State s w)) as (Hr & _ & Hsp).
  repeat split; auto using nolambda_args_str, callpeak_args_raises.
Qed.

(** ** Blacklist filtering *)

Lemma keeps_remove_blacklisted_peaks {X} (f : ChIPSeqPeaks -> X) blacklist_path :
  keeps f (remove_blacklisted_peaks external blacklist_path).
Proof. unfold remove_blacklisted_peaks. keeps_auto. Qed.

(** C2.  Whatever the object, the files and the blacklist, and whether the
    method returns or raises, [remove_blacklisted_peaks] leaves the object,
    and so every named buffer of it, as it was: the filtered bytes are
    bound to the loop variable and go no further. *)
Theorem C2_remove_blacklisted_peaks_changes_no_buffer blacklist_path st :
  self (snd (remove_blacklisted_peaks external blacklist_path st)) = self st
  /\ buffers (self (snd (remove_blacklisted_peaks external blacklist_path st)))
     = buffers (self st).
Proof.
  split.
  - apply (keeps_remove_blacklisted_peaks (fun s => s)).
  - apply (keeps_remove_blacklisted_peaks buffers).
Qed.

(** ** The inputs stay *)

Lemma keeps_bam_setattr name value :
  String.eqb name "treatment_bam" = false ->
  String.eqb name "control_bam" = false ->
  keeps bam_inputs (setattr name value).
Proof.
  intros Ht Hc. unfold setattr. apply keeps_modify_self. intros s.
  rewrite Ht, Hc. reflexivity.
Qed.

Lemma keeps_bam_call_peaks sample_name dir :
  keeps bam_inputs (call_peaks external tempname sample_name dir).
Proof.
  intros st. destruct (call_peaks_raises sample_name dir st) as (_ & Hs & _).
  now rewrite Hs.
Qed.

Lemma keeps_bam_bdgcmp : keeps bam_inputs (bdgcmp external tempname).
Proof.
  unfold bdgcmp. apply keeps_bind.
  { apply keeps_modify_self. reflexivity. }
  intros _.
  repeat (first [ apply keeps_NamedTemporaryFile; intros ?
                | apply keeps_TemporaryDirectory; intros ? ]).
  keeps_auto.
  - apply keeps_NamedTemporaryFile. intros ?. apply keeps_ret.
  - apply keeps_bam_setattr; reflexivity.
Qed.

Lemma keeps_bam_write prefix extensions :
  keeps bam_inputs (write prefix extensions).
Proof.
  unfold write, write_one. keeps_auto. apply keeps_modify_self. reflexivity.
Qed.

Lemma keeps_bam_enter : keeps bam_inputs __enter__.
Proof. apply keeps_modify_self. reflexivity. Qed.

Lemma keeps_bam_exit : keeps bam_inputs __exit__.
Proof. unfold __exit__, exit_one. keeps_auto. Qed.

(** C8.  Each operation on a constructed object -- peak calling, the
    comparison step, blacklist filtering, [write], entering and leaving the
    managed context, [clean_up] -- leaves [treatment_bam] and [control_bam]
    as they were, whether it returns or raises. *)
Theorem C8_inputs_are_not_changed st sample_name dir blacklist_path prefix
    extensions path :
  bam_inputs (self (snd (call_peaks external tempname sample_name dir st)))
  = bam_inputs (self st)
  /\ bam_inputs (self (snd (bdgcmp external tempname st))) = bam_inputs (self st)
  /\ bam_inputs (self (snd (remove_blacklisted_peaks external blacklist_path st)))
     = bam_inputs (self st)
  /\ bam_inputs (self (snd (write prefix extensions st))) = bam_inputs (self st)
  /\ bam_inputs (self (snd (__enter__ st))) = bam_inputs (self st)
  /\ bam_inputs (self (snd (__exit__ st))) = bam_inputs (self st)
  /\ bam_inputs (self (snd (clean_up path st))) = bam_inputs (self st).
Proof.
  repeat apply conj.
  - apply keeps_bam_call_peaks.
  - apply keeps_bam_bdgcmp.
  - apply keeps_remove_blacklisted_peaks.
  - apply keeps_bam_write.
  - apply keeps_bam_enter.
  - apply keeps_bam_exit.
  - apply keeps_clean_up.
Qed.

(** ** The constructor *)

(** The result of the constructor, from that of its first part. *)
Lemma init_result a w :
  fst (__init__ external tempname a w)
  = match init_attributes a w with
    | Raise e => Raise e
    | Ok _ => Raise TypeError
    end.
Proof.
  destruct (init_attributes a w) as [s | e] eqn:E.
  - apply (init_after_attributes a w s E).
  - unfold __init__. rewrite E. reflexivity.
Qed.

(** The attributes do not tell an empty [bytes] control from none. *)
Lemma init_attributes_empty_control a w :
  arg_control_bam a = PyBytes [] ->
  init_attributes (with_control PyNone a) w = init_attributes a w.
Proof.
  intros Hc. unfold init_attributes. simpl. rewrite Hc. reflexivity.
Qed.

(** C9.  With [b''] for control, the attributes are those of a call with no
    control: [control_bam] is [None], ['control_lambda.bdg'] is not among
    the output extensions, the operand that would carry ['--control'] is
    the empty tuple, and the constructor does what it does without control
    (no command line at all is launched). *)
Theorem C9_empty_control_is_no_control a w s :
  arg_control_bam a = PyBytes [] ->
  init_attributes a w = Ok s ->
  control_bam s = None
  /\ ~ In "control_lambda.bdg" (output_extensions s)
  /\ (forall control_name, control_args s control_name = Ok (PyTuple []))
  /\ init_attributes (with_control PyNone a) w = Ok s
  /\ __init__ external tempname a w
     = __init__ external tempname (with_control PyNone a) w
  /\ spawned (snd (__init__ external tempname a w)) = spawned w.
Proof.
  intros Hc Hs.
  assert (Hn : init_attributes (with_control PyNone a) w = Ok s)
    by (rewrite init_attributes_empty_control; auto).
  assert (control_bam s = None
          /\ output_extensions s = expected_extensions false (arg_broad a))
    as [Hcb Hoe].
  { unfold init_attributes in Hs. rewrite Hc in Hs. simpl in Hs.
    destruct (negb (truthy (arg_macs2_path a))); [discriminate |].
    destruct (parse_input (arg_treatment_bam a) w); [| discriminate].
    simpl in Hs. injection Hs as <-. auto. }
  repeat apply conj; auto.
  - rewrite Hoe. destruct (arg_broad a); simpl; intuition discriminate.
  - intros control_name. unfold control_args, has_control. rewrite Hcb.
    reflexivity.
  - unfold __init__. rewrite Hs, Hn. reflexivity.
  - apply (init_after_attributes a w s Hs).
Qed.

(** C10.  In ATAC-seq mode [nomodel] is stored as [True] when the caller
    left it [False], and [shift] as [-100] when the caller's shift is zero,
    an explicit zero included; without ATAC-seq mode both are stored as
    given.  In all, [nomodel] is [atac_seq or nomodel] and [shift] is
    [-100] exactly for [atac_seq] with a zero shift. *)
Theorem C10_atac_seq_defaults a w s :
  init_attributes a w = Ok s ->
  (arg_atac_seq a = true ->
     (arg_nomodel a = false -> nomodel s = true)
     /\ (arg_shift a = 0 -> shift s = -100))
  /\ (arg_atac_seq a = false ->
        nomodel s = arg_nomodel a /\ shift s = arg_shift a)
  /\ nomodel s = (arg_atac_seq a || arg_nomodel a)
  /\ shift s = (if arg_atac_seq a && (arg_shift a =? 0)
                then -100 else arg_shift a).
Proof.
  intros Hs. unfold init_attributes in Hs.
  destruct (negb (truthy (arg_macs2_path a))); [discriminate |].
  destruct (parse_input (arg_treatment_bam a) w); [| discriminate].
  simpl in Hs.
  destruct (if truthy (arg_control_bam a)
            then rbind (parse_input (arg_control_bam a) w)
                   (fun b => Ok (Some b))
            else Ok None); [| discriminate].
  simpl in Hs. injection Hs as <-. simpl.
  repeat apply conj.
  - intros ->. split.
    + intros ->. reflexivity.
    + intros ->. reflexivity.
  - intros ->. split; reflexivity.
  - destruct (arg_atac_seq a), (arg_nomodel a); reflexivity.
  - destruct (arg_atac_seq a), (arg_shift a =? 0); reflexivity.
Qed.

(** What [parse_input] raises. *)
Lemma parse_input_raises v w e :
  parse_input v w = Raise e ->
  (e = OSError /\ bad_input v = false) \/ (e = BadInputError /\ bad_input v = true).
Proof.
  unfold parse_input, bad_input.
  destruct v; simpl; try (intros [= <-]; auto; fail).
  destruct (files w !! s); intros [= <-]. auto.
Qed.

Lemma parse_input_ok v w b : parse_input v w = Ok b -> bad_input v = false.
Proof.
  unfold parse_input, bad_input. destruct v; simpl; try discriminate; auto.
Qed.

(** C4 (amended).  The constructor raises [MissingMACS2Error] exactly when
    [macs2_path] is false ([None] or empty).  It raises [BadInputError]
    exactly when [macs2_path] is true and either the treatment is neither
    [str] nor [bytes], or the treatment has loaded and the control is true
    and neither [str] nor [bytes]: a control that tests false is taken as
    absent, whatever its type. *)
Theorem C4_documented_errors a w :
  (fst (__init__ external tempname a w) = Raise MissingMACS2Error
   <-> truthy (arg_macs2_path a) = false)
  /\ (fst (__init__ external tempname a w) = Raise BadInputError
      <-> truthy (arg_macs2_path a) = true
          /\ (bad_input (arg_treatment_bam a) = true
              \/ ((exists b, parse_input (arg_treatment_bam a) w = Ok b)
                  /\ truthy (arg_control_bam a) = true
                  /\ bad_input (arg_control_bam a) = true))).
Proof.
  rewrite init_result. unfold init_attributes.
  destruct (truthy (arg_macs2_path a)); simpl.
  2: { split; split; intros; try discriminate; auto.
       destruct H; discriminate. }
  destruct (parse_input (arg_treatment_bam a) w) as [t | e] eqn:Et; simpl.
  - pose proof (parse_input_ok _ _ _ Et) as Hbt. rewrite Hbt.
    destruct (truthy (arg_control_bam a)) eqn:Ec; simpl.
    + destruct (parse_input (arg_control_bam a) w) as [c | e] eqn:Ecb; simpl.
      * pose proof (parse_input_ok _ _ _ Ecb) as Hbc. rewrite Hbc.
        split; split; intros; try discriminate.
        destruct H as [_ [? | (_ & _ & ?)]]; discriminate.
      * destruct (parse_input_raises _ _ _ Ecb) as [[-> Hb] | [-> Hb]];
          rewrite Hb.
        -- split; split; intros; try discriminate.
           destruct H as [_ [? | (_ & _ & ?)]]; discriminate.
        -- split; split; intros; try discriminate; eauto 6.
    + split; split; intros; try discriminate.
      destruct H as [_ [? | (_ & ? & _)]]; discriminate.
  - destruct (parse_input_raises _ _ _ Et) as [[-> Hb] | [-> Hb]]; rewrite Hb.
    + split; split; intros; try discriminate.
      destruct H as [_ [? | ((b & ?) & _)]]; discriminate.
    + split; split; intros; try discriminate; auto.
Qed.

(** ** The comparison step *)

(** With both tracks in memory and the MACS2 path a path, [bdgcmp] returns:
    one buffer is set, one extension is appended. *)
Lemma bdgcmp_complete st t c :
  buffers (self st) !! "treat_pileup_bdg" = Some t ->
  buffers (self st) !! "control_lambda_bdg" = Some c ->
  isinstance_str (macs2_path (self st))
  || isinstance_bytes (macs2_path (self st)) = true ->
  exists out w',
    bdgcmp external tempname st
    = (Ok tt,
       State (set_buffers (<["ppois_bdg" := out]> (buffers (self st)))
                (set_output_extensions
                   (output_extensions (self st) ++ ["ppois.bdg"]) (self st)))
             w').
Proof.
  intros Ht Hc Hm.
  unfold bdgcmp, NamedTemporaryFile, TemporaryDirectory, finally, bind,
    get_files, get_self, open_wb, file_write, os_remove, rmtree, modify_files,
    modify_self, subprocess_call, run, lift, ret, getattr, setattr, cat,
    argv_of.
  cbn. rewrite Ht. cbn. rewrite Hc. cbn. rewrite Hm. cbn.
  do 2 eexists. reflexivity.
Qed.

(** With one of them missing, the attribute access raises; the extension
    has been appended by then. *)
Lemma bdgcmp_missing st :
  buffers (self st) !! "treat_pileup_bdg" = None
  \/ buffers (self st) !! "control_lambda_bdg" = None ->
  exists w',
    bdgcmp external tempname st
    = (Raise AttributeError,
       State (set_output_extensions
                (output_extensions (self st) ++ ["ppois.bdg"]) (self st))
             w').
Proof.
  intros H.
  unfold bdgcmp, NamedTemporaryFile, TemporaryDirectory, finally, bind,
    get_files, get_self, open_wb, file_write, os_remove, rmtree, modify_files,
    modify_self, subprocess_call, run, lift, ret, getattr, setattr, cat,
    argv_of.
  cbn.
  destruct (buffers (self st) !! "treat_pileup_bdg") as [t |] eqn:Et; cbn.
  - destruct H as [H | H]; [discriminate |]. rewrite H. cbn.
    eexists. reflexivity.
  - eexists. reflexivity.
Qed.


End Properties.

(** ** The exit status *)

(** The status of the child is dropped by both steps: an external program
    that differs in its exit statuses only gives the same outcome. *)
Lemma bdgcmp_with_status external tempname status st :
  bdgcmp (with_status status external) tempname st
  = bdgcmp external tempname st.
Proof.
  unfold bdgcmp, NamedTemporaryFile, TemporaryDirectory, finally, bind,
    get_files, get_self, open_wb, file_write, os_remove, rmtree, modify_files,
    modify_self, subprocess_call, run, lift, ret, getattr, setattr, cat,
    argv_of.
  cbn.
  destruct (buffers (self st) !! "treat_pileup_bdg"); cbn; [| reflexivity].
  destruct (buffers (self st) !! "control_lambda_bdg"); cbn; [| reflexivity].
  destruct (isinstance_str (macs2_path (self st))
            || isinstance_bytes (macs2_path (self st))); reflexivity.
Qed.

Lemma call_peaks_with_status external tempname status sample_name dir st :
  call_peaks (with_status status external) tempname sample_name dir st
  = call_peaks external tempname sample_name dir st.
Proof.
  unfold call_peaks, NamedTemporaryFile, TemporaryDirectory, finally, bind,
    get_files, get_self, open_wb, file_write, os_remove, rmtree, modify_files,
    lift, ret.
  cbn -[callpeak_args has_control].
  destruct (has_control (self st)); cbn -[callpeak_args];
    rewrite callpeak_args_raises; reflexivity.
Qed.


(** ** Writing and cleaning up *)

Lemma format_under_inj prefix e1 e2 :
  format_under prefix e1 = format_under prefix e2 -> e1 = e2.
Proof.
  unfold format_under. induction prefix as [| c p IH]; simpl.
  - intros [= H]. exact H.
  - intros [= H]. auto.
Qed.

Lemma format_under_nonempty prefix ext :
  String.eqb (format_under prefix ext) EmptyString = false.
Proof. unfold format_under. destruct prefix; reflexivity. Qed.

Lemma state_eta st :
  State (self st) (World (files (os st)) (spawned (os st))) = st.
Proof. destruct st as [s [fs sp]]. reflexivity. Qed.

(** Reading an attribute changes nothing and looks at the object only. *)
Lemma getattr_state name st : snd (getattr name st) = st.
Proof.
  unfold getattr.
  repeat match goal with
         | |- context [if ?b then _ else _] => destruct b
         | |- context [match ?o with Some _ => _ | None => _ end] => destruct o
         end; reflexivity.
Qed.

Lemma getattr_self name st st' :
  self st = self st' -> fst (getattr name st) = fst (getattr name st').
Proof.
  intros H. unfold getattr. rewrite H.
  repeat match goal with
         | |- context [if ?b then _ else _] => destruct b
         | |- context [match ?o with Some _ => _ | None => _ end] => destruct o
         end; reflexivity.
Qed.

Lemma write_one_ok prefix ext st b :
  fst (getattr (replace_dot ext) st) = Ok b ->
  write_one prefix ext st
  = (Ok tt,
     State (self st)
       (World (<[format_under prefix ext := b]> (files (os st)))
              (spawned (os st)))).
Proof.
  intros Hb. unfold write_one, bind, open_wb, modify_files. simpl.
  set (st1 := State (self st)
                (World (<[format_under prefix ext := []]> (files (os st)))
                       (spawned (os st)))).
  assert (H1 : fst (getattr (replace_dot ext) st1) = Ok b)
    by (rewrite <- Hb; apply getattr_self; reflexivity).
  pose proof (getattr_state (replace_dot ext) st1) as H2.
  destruct (getattr (replace_dot ext) st1) as [r st']. simpl in *.
  subst r st'. unfold file_write, modify_files, st1. simpl.
  rewrite lookup_insert_eq. simpl. rewrite insert_insert_eq. reflexivity.
Qed.

(** A loop goes on after a turn that returns. *)
Lemma for_each_cons_ok {A} (x : A) l (body : A -> M unit) st st1 :
  body x st = (Ok tt, st1) ->
  for_each (x :: l) body st = for_each l body st1.
Proof. intros H. simpl. unfold bind. rewrite H. reflexivity. Qed.

(** The loop of [write] over extensions that all name a buffer. *)
Lemma write_loop prefix l : forall st,
  (forall ext, ext ∈ l -> exists b, fst (getattr (replace_dot ext) st) = Ok b) ->
  fst (for_each l (write_one prefix) st) = Ok tt
  /\ self (snd (for_each l (write_one prefix) st)) = self st
  /\ (forall ext b, ext ∈ l ->
        fst (getattr (replace_dot ext) st) = Ok b ->
        files (os (snd (for_each l (write_one prefix) st)))
          !! format_under prefix ext = Some b)
  /\ (forall p, p ∉ map (format_under prefix) l ->
        files (os (snd (for_each l (write_one prefix) st))) !! p
        = files (os st) !! p).
Proof.
  induction l as [| e l IH]; intros st Hall.
  - simpl. repeat apply conj; auto. intros ext b H. inversion H.
  - destruct (Hall e) as [be Hbe]; [left |].
    rewrite (for_each_cons_ok _ _ _ _ _ (write_one_ok prefix e st be Hbe)).
    set (st1 := State (self st)
                  (World (<[format_under prefix e := be]> (files (os st)))
                         (spawned (os st)))).
    assert (Hself : self st1 = self st) by reflexivity.
    destruct (IH st1) as (Hr & Hs & Hin & Hout).
    { intros ext Hext. destruct (Hall ext) as [b Hb]; [right; exact Hext |].
      exists b. rewrite <- Hb. apply getattr_self. exact Hself. }
    repeat apply conj.
    + exact Hr.
    + rewrite Hs. exact Hself.
    + intros ext b Hext Hb.
      destruct (decide (ext ∈ l)) as [Hl | Hl].
      * apply Hin; [exact Hl |]. rewrite <- Hb. apply getattr_self. exact Hself.
      * apply elem_of_cons in Hext as [-> | Hext]; [| contradiction].
        rewrite Hout.
        -- unfold st1. simpl. rewrite lookup_insert_eq. congruence.
        -- intros Hp. apply list_elem_of_fmap in Hp as (e' & He' & Hle').
           apply format_under_inj in He'. subst e'. contradiction.
    + intros p Hp. rewrite Hout.
      * unfold st1. simpl. apply lookup_insert_ne. intros <-. apply Hp. left.
      * intros Hp'. apply Hp. right. exact Hp'.
Qed.

(** [clean_up] of a path that is not empty removes the file, if there. *)
Lemma clean_up_removes path st :
  String.eqb path EmptyString = false ->
  clean_up path st
  = (Ok tt,
     State (self st) (World (delete path (files (os st))) (spawned (os st)))).
Proof.
  intros Hp. unfold clean_up, bind, isfile, get_files, ret, os_remove,
    modify_files. rewrite Hp. simpl.
  case_bool_decide as Hf; simpl.
  - reflexivity.
  - rewrite delete_id; [now rewrite state_eta |].
    destruct (files (os st) !! path) eqn:E; [| reflexivity].
    exfalso. apply Hf. eauto.
Qed.

(** A second [clean_up] of the same path does nothing. *)
Lemma clean_up_twice path st :
  clean_up path (snd (clean_up path st)) = (Ok tt, snd (clean_up path st)).
Proof.
  destruct (String.eqb path EmptyString) eqn:Hp.
  - unfold clean_up, bind, ret. rewrite Hp. reflexivity.
  - rewrite !clean_up_removes by exact Hp. simpl.
    now rewrite delete_delete_eq.
Qed.

Lemma exit_loop l : forall st,
  fst (for_each l exit_one st) = Ok tt
  /\ self (snd (for_each l exit_one st)) = self st
  /\ (forall p,
        files (os (snd (for_each l exit_one st))) !! p
        = if decide (p ∈ map (format_under (str_prefix (cleanup_prefix (self st)))) l)
          then None
          else files (os st) !! p).
Proof.
  induction l as [| e l IH]; intros st.
  - simpl. repeat apply conj; auto.
  - set (pre := str_prefix (cleanup_prefix (self st))).
    rewrite (for_each_cons_ok _ _ _ _
               (State (self st)
                  (World (delete (format_under pre e) (files (os st)))
                         (spawned (os st))))).
    2: { unfold exit_one, bind, get_self.
         apply clean_up_removes, format_under_nonempty. }
    set (st1 := State (self st)
                  (World (delete (format_under pre e) (files (os st)))
                         (spawned (os st)))).
    destruct (IH st1) as (Hr & Hs & Hf).
    repeat apply conj.
    + exact Hr.
    + rewrite Hs. reflexivity.
    + intros p. rewrite Hf. unfold st1. simpl. fold pre.
      destruct (decide (p ∈ map (format_under pre) l)) as [H | H].
      * rewrite decide_True; [reflexivity | right; exact H].
      * destruct (decide (p = format_under pre e)) as [-> | Hne].
        -- rewrite decide_True by left. apply lookup_delete_eq.
        -- rewrite decide_False.
           ++ apply lookup_delete_ne. congruence.
           ++ intros Hp. apply elem_of_cons in Hp as [? | ?]; contradiction.
Qed.

Lemma write_unfold prefix extensions :
  write prefix extensions
  = (s <- get_self ;;
     for_each (selected s extensions) (write_one prefix) ;;
     modify_self (set_cleanup_prefix (Some prefix))).
Proof. reflexivity. Qed.

Lemma exit_unfold :
  __exit__
  = (s <- get_self ;;
     (if cleans_up s then for_each (output_extensions s) exit_one else ret tt) ;;
     ret false).
Proof. reflexivity. Qed.

(** [write], when every selected extension names a buffer. *)
Lemma write_result prefix extensions st :
  (forall ext, ext ∈ selected (self st) extensions ->
               exists b, fst (getattr (replace_dot ext) st) = Ok b) ->
  write prefix extensions st
  = (Ok tt,
     State (set_cleanup_prefix (Some prefix) (self st))
       (os (snd (for_each (selected (self st) extensions)
                   (write_one prefix) st)))).
Proof.
  intros Hall. rewrite write_unfold. unfold bind, get_self, modify_self.
  destruct (write_loop prefix _ st Hall) as (Hr & Hs & _).
  destruct (for_each (selected (self st) extensions) (write_one prefix) st)
    as [r stl]. simpl in *. subst r. rewrite Hs. reflexivity.
Qed.

(** [__exit__] returns [False], after the loop when [cleans_up] holds. *)
Lemma exit_result st :
  __exit__ st
  = (Ok false,
     if cleans_up (self st)
     then snd (for_each (output_extensions (self st)) exit_one st)
     else st).
Proof.
  rewrite exit_unfold. unfold bind, get_self, ret.
  destruct (cleans_up (self st)); [| reflexivity].
  destruct (exit_loop (output_extensions (self st)) st) as (Hr & _).
  destruct (for_each (output_extensions (self st)) exit_one st) as [r stl].
  simpl in *. subst r. reflexivity.
Qed.


(** * The properties at concrete inputs *)

(** C1 at the defaults, on one byte of treatment. *)
Lemma C1_construction_witness :
  truthy (arg_macs2_path demo_arguments) = true
  /\ parse_input (arg_treatment_bam demo_arguments) demo_world = Ok [Byte.x42]
  /\ fst (__init__ demo_external demo_tempname demo_arguments demo_world)
     = Raise TypeError
  /\ spawned (snd (__init__ demo_external demo_tempname demo_arguments demo_world))
     = [].
Proof.
  pose proof (C1_construction_raises_TypeError demo_external demo_tempname
                demo_arguments demo_world [Byte.x42]
                eq_refl eq_refl (or_introl eq_refl))
    as (_ & Hr & _ & Hs).
  repeat apply conj; [reflexivity | reflexivity | exact Hr | exact Hs].
Defined.

(** C4 as stated fails on a control of zero: it is an [int], it is
    supplied, and the constructor does not raise [BadInputError] (it goes
    on to the [TypeError] of peak calling). *)
Lemma C4_zero_control_counterexample :
  bad_input (arg_control_bam demo_arguments_zero_control) = true
  /\ arg_control_bam demo_arguments_zero_control <> PyNone
  /\ fst (__init__ demo_external demo_tempname demo_arguments_zero_control
            demo_world)
     = Raise TypeError
  /\ fst (__init__ demo_external demo_tempname demo_arguments_zero_control
            demo_world)
     <> Raise BadInputError.
Proof.
  assert (H : fst (__init__ demo_external demo_tempname
                     demo_arguments_zero_control demo_world)
              = Raise TypeError).
  { rewrite init_result. reflexivity. }
  repeat apply conj; [reflexivity | discriminate | exact H |].
  rewrite H. discriminate.
Qed.





(** C9 on the defaults with [b''] for control. *)
Lemma C9_empty_control_witness :
  init_attributes demo_arguments_empty_control demo_world = Ok demo_attributes
  /\ control_bam demo_attributes = None
  /\ init_attributes (with_control PyNone demo_arguments_empty_control)
       demo_world
     = Ok demo_attributes.
Proof.
  pose proof (C9_empty_control_is_no_control demo_external demo_tempname
                demo_arguments_empty_control demo_world demo_attributes
                eq_refl eq_refl) as (Hc & _ & _ & Hn & _).
  repeat apply conj; [reflexivity | exact Hc | exact Hn].
Defined.

(** C10 on the defaults in ATAC-seq mode. *)
Lemma C10_atac_seq_witness :
  init_attributes demo_arguments_atac demo_world = Ok demo_attributes_atac
  /\ nomodel demo_attributes_atac = true
  /\ shift demo_attributes_atac = -100.
Proof.
  pose proof (C10_atac_seq_defaults demo_arguments_atac demo_world
                demo_attributes_atac eq_refl) as (Ha & _).
  destruct (Ha eq_refl) as [Hn Hs].
  repeat apply conj; [reflexivity | exact (Hn eq_refl) | exact (Hs eq_refl)].
Defined.

(** C2 on the object with its four buffers: [bedtools] is run on the
    narrow peaks, and the buffer holds afterwards what it held before. *)
Example remove_blacklisted_peaks_runs_and_keeps :
  spawned (os (snd (remove_blacklisted_peaks demo_external "blacklist.bed"
                      (State demo_peaks demo_world))))
  = [[PyStr "bedtools"; PyStr "intersect"; PyStr "-a"; PyStr "stdin";
      PyStr "-b"; PyStr "blacklist.bed"; PyStr "-v"]]
  /\ buffers (self (snd (remove_blacklisted_peaks demo_external "blacklist.bed"
                           (State demo_peaks demo_world))))
       !! "peaks_narrowPeak" = Some [Byte.x32].
Proof. split; vm_compute; reflexivity. Qed.

(** * Further properties of the code *)

(** ** [parse_input] *)


(** ** [clean_up] and [__exit__] *)


(** The loop of [__exit__] launches nothing. *)
Lemma exit_loop_spawned l : forall st,
  spawned (os (snd (for_each l exit_one st))) = spawned (os st).
Proof.
  induction l as [| e l IH]; intros st; [reflexivity |].
  rewrite (for_each_cons_ok _ _ _ _
             (State (self st)
                (World (delete (format_under
                                  (str_prefix (cleanup_prefix (self st))) e)
                          (files (os st)))
                       (spawned (os st))))).
  - rewrite IH. reflexivity.
  - unfold exit_one, bind, get_self.
    apply clean_up_removes, format_under_nonempty.
Qed.


(** ** [write] *)

(** A turn of the loop of [write] on an extension that names no buffer:
    the file has been opened, and is empty. *)
Lemma write_one_raises prefix ext st e :
  fst (getattr (replace_dot ext) st) = Raise e ->
  write_one prefix ext st
  = (Raise e,
     State (self st)
       (World (<[format_under prefix ext := []]> (files (os st)))
              (spawned (os st)))).
Proof.
  intros He. unfold write_one, bind, open_wb, modify_files. simpl.
  set (st1 := State (self st)
                (World (<[format_under prefix ext := []]> (files (os st)))
                       (spawned (os st)))).
  assert (H1 : fst (getattr (replace_dot ext) st1) = Raise e)
    by (rewrite <- He; apply getattr_self; reflexivity).
  pose proof (getattr_state (replace_dot ext) st1) as H2.
  destruct (getattr (replace_dot ext) st1) as [r st']. simpl in *.
  subst r st'. reflexivity.
Qed.

Lemma for_each_cons_raise {A} (x : A) l (body : A -> M unit) st st1 e :
  body x st = (Raise e, st1) ->
  for_each (x :: l) body st = (Raise e, st1).
Proof. intros H. simpl. unfold bind. rewrite H. reflexivity. Qed.

(** The loop of [write] stops at the first extension that names no
    buffer. *)
Lemma write_loop_raises prefix l1 : forall st ext l2 e,
  (forall x, x ∈ l1 -> exists b, fst (getattr (replace_dot x) st) = Ok b) ->
  fst (getattr (replace_dot ext) st) = Raise e ->
  fst (for_each (l1 ++ ext :: l2) (write_one prefix) st) = Raise e
  /\ self (snd (for_each (l1 ++ ext :: l2) (write_one prefix) st)) = self st
  /\ files (os (snd (for_each (l1 ++ ext :: l2) (write_one prefix) st)))
       !! format_under prefix ext = Some []
  /\ (forall x b, x ∈ l1 ->
        fst (getattr (replace_dot x) st) = Ok b ->
        files (os (snd (for_each (l1 ++ ext :: l2) (write_one prefix) st)))
          !! format_under prefix x = Some b)
  /\ (forall p, p ∉ map (format_under prefix) (l1 ++ [ext]) ->
        files (os (snd (for_each (l1 ++ ext :: l2) (write_one prefix) st))) !! p
        = files (os st) !! p).
Proof.
  induction l1 as [| x0 l1 IH]; intros st ext l2 e Hall He.
  - simpl app.
    rewrite (for_each_cons_raise _ _ _ _ _ _ (write_one_raises prefix ext st e He)).
    simpl. repeat apply conj; auto.
    + apply lookup_insert_eq.
    + intros x b H. inversion H.
    + intros p Hp. apply lookup_insert_ne. intros <-. apply Hp. left.
  - destruct (Hall x0) as [b0 Hb0]; [left |].
    simpl app.
    rewrite (for_each_cons_ok _ _ _ _ _ (write_one_ok prefix x0 st b0 Hb0)).
    set (st1 := State (self st)
                  (World (<[format_under prefix x0 := b0]> (files (os st)))
                         (spawned (os st)))).
    assert (Hself : self st1 = self st) by reflexivity.
    assert (Hne : x0 <> ext) by (intros ->; congruence).
    destruct (IH st1 ext l2 e) as (Hr & Hs & Hext & Hin & Hout).
    { intros x Hx. destruct (Hall x) as [b Hb]; [right; exact Hx |].
      exists b. rewrite <- Hb. apply getattr_self. exact Hself. }
    { rewrite <- He. apply getattr_self. exact Hself. }
    repeat apply conj.
    + exact Hr.
    + rewrite Hs. exact Hself.
    + exact Hext.
    + intros x b Hx Hb.
      destruct (decide (x ∈ l1)) as [Hl | Hl].
      * apply Hin; [exact Hl |]. rewrite <- Hb. apply getattr_self. exact Hself.
      * apply elem_of_cons in Hx as [-> | Hx]; [| contradiction].
        rewrite Hout.
        -- unfold st1. simpl. rewrite lookup_insert_eq. congruence.
        -- intros Hp. apply list_elem_of_fmap in Hp as (x' & Hx' & Hlx').
           apply format_under_inj in Hx'. subst x'.
           apply elem_of_app in Hlx' as [? | Hlx']; [contradiction |].
           apply elem_of_cons in Hlx' as [? | Hlx']; [contradiction |].
           inversion Hlx'.
    + intros p Hp. rewrite Hout.
      * unfold st1. simpl. apply lookup_insert_ne. intros <-. apply Hp. left.
      * intros Hp'. apply Hp. right. exact Hp'.
Qed.



(** ** The managed context *)

(** Reading a [bytes] attribute looks at the inputs and the buffers only. *)
Lemma getattr_buffers name st st' :
  treatment_bam (self st) = treatment_bam (self st') ->
  control_bam (self st) = control_bam (self st') ->
  buffers (self st) = buffers (self st') ->
  fst (getattr name st) = fst (getattr name st').
Proof.
  intros Ht Hc Hb. unfold getattr. rewrite Ht, Hc, Hb.
  repeat match goal with
         | |- context [if ?b then _ else _] => destruct b
         | |- context [match ?o with Some _ => _ | None => _ end] => destruct o
         end; reflexivity.
Qed.

(** A [with] block runs its body with [cleans_up] on, and [__exit__]
    after it; the outcome is that of the body. *)
Lemma with_context_run {A} (body : M A) st :
  with_context body st
  = (fst (body (State (set_cleans_up true (self st)) (os st))),
     snd (__exit__ (snd (body (State (set_cleans_up true (self st)) (os st)))))).
Proof.
  unfold with_context, bind at 1, __enter__, modify_self, finally.
  destruct (body (State (set_cleans_up true (self st)) (os st))) as [r st1].
  unfold bind, ret. cbn [fst snd].
  destruct (__exit__ st1) as [[x | e] st2]; reflexivity.
Qed.

(** [write] without extensions and then [__exit__], on an object whose
    extensions all name a buffer. *)
Lemma write_exit_files prefix st :
  (forall ext, ext ∈ output_extensions (self st) ->
               exists b, fst (getattr (replace_dot ext) st) = Ok b) ->
  fst (write prefix [] st) = Ok tt
  /\ fst (__exit__ (snd (write prefix [] st))) = Ok false
  /\ (cleans_up (self st) = true ->
      forall p,
        files (os (snd (__exit__ (snd (write prefix [] st))))) !! p
        = if decide (p ∈ map (format_under prefix) (output_extensions (self st)))
          then None
          else files (os st) !! p)
  /\ (cleans_up (self st) = false ->
      (forall ext b, ext ∈ output_extensions (self st) ->
         fst (getattr (replace_dot ext) st) = Ok b ->
         files (os (snd (__exit__ (snd (write prefix [] st)))))
           !! format_under prefix ext = Some b)
      /\ (forall p, p ∉ map (format_under prefix) (output_extensions (self st)) ->
            files (os (snd (__exit__ (snd (write prefix [] st))))) !! p
            = files (os st) !! p)).
Proof.
  intros Hall.
  assert (Hall' : forall ext, ext ∈ selected (self st) [] ->
                    exists b, fst (getattr (replace_dot ext) st) = Ok b)
    by exact Hall.
  destruct (write_loop prefix _ st Hall') as (_ & _ & Hin & Hout).
  rewrite (write_result prefix [] st Hall'). simpl selected. cbn [fst snd].
  set (st1 := State (set_cleanup_prefix (Some prefix) (self st))
                (os (snd (for_each (output_extensions (self st))
                            (write_one prefix) st)))).
  rewrite (exit_result st1). cbn [fst snd].
  repeat apply conj; try reflexivity.
  - intros Hc p.
    replace (cleans_up (self st1)) with true by (symmetry; exact Hc).
    destruct (exit_loop (output_extensions (self st1)) st1) as (_ & _ & Hf).
    rewrite Hf. unfold st1. simpl.
    destruct (decide _) as [Hp | Hp]; [reflexivity |].
    apply Hout. exact Hp.
  - intros Hc.
    replace (cleans_up (self st1)) with false by (symmetry; exact Hc).
    split; [intros ext b; apply Hin | apply Hout].
Qed.



Section FurtherProperties.

Variable external :
  list pyval -> bytes -> option string -> gmap string bytes -> process.
Variable tempname : option string -> gmap string bytes -> string.

(** ** Blacklist filtering *)


(** ** The comparison step, again *)



(** ** Scratch files *)

(** What a [with] block of [tempfile] leaves of the files: those its body
    leaves, without the temporary file, or without all that is in the
    temporary directory. *)
Lemma NamedTemporaryFile_files {A} dir (body : string -> M A) st :
  files (os (snd (NamedTemporaryFile tempname dir body st)))
  = delete (tempname dir (files (os st)))
      (files (os (snd (body (tempname dir (files (os st)))
                         (State (self st)
                            (World (<[tempname dir (files (os st)) := []]>
                                      (files (os st)))
                                   (spawned (os st)))))))).
Proof.
  unfold NamedTemporaryFile, bind, get_files, open_wb, modify_files, finally,
    os_remove. cbn [fst snd self os files spawned].
  destruct (body _ _) as [r st1]. reflexivity.
Qed.

Lemma TemporaryDirectory_files {A} dir (body : string -> M A) st :
  files (os (snd (TemporaryDirectory tempname dir body st)))
  = filter (fun kv : string * bytes =>
              inside (tempname dir (files (os st))) kv.1 = false)
      (files (os (snd (body (tempname dir (files (os st))) st)))).
Proof.
  unfold TemporaryDirectory, bind, get_files, finally, rmtree, modify_files.
  cbn [fst snd self os files spawned].
  destruct (body _ _) as [r st1]. reflexivity.
Qed.

(** Of two nested temporary files and a temporary directory in them,
    nothing is left. *)
Lemma scratch_gone (t c d : string) (fs fs' : gmap string bytes) :
  fs' = delete t (delete c
          (filter (fun kv : string * bytes => inside d kv.1 = false) fs)) ->
  fs' !! t = None
  /\ fs' !! c = None
  /\ (forall p, inside d p = true -> fs' !! p = None).
Proof.
  intros ->. repeat apply conj.
  - apply lookup_delete_eq.
  - rewrite lookup_delete. case_decide; [reflexivity |].
    apply lookup_delete_eq.
  - intros p Hp. rewrite !lookup_delete. repeat case_decide; try reflexivity.
    apply map_lookup_filter_None. right. intros x _. simpl. congruence.
Qed.

(** X11.  Neither step leaves a scratch file: after [bdgcmp] and after
    [call_peaks], returning or raising and whatever the external program
    has written, the two temporary files are gone and so is everything
    under the temporary directory. *)
Theorem X11_no_scratch_file_left st sample_name dir :
  (let t := tempname None (files (os st)) in
   let c := tempname None (<[t := []]> (files (os st))) in
   let d := tempname None (<[c := []]> (<[t := []]> (files (os st)))) in
   let fs' := files (os (snd (bdgcmp external tempname st))) in
   fs' !! t = None /\ fs' !! c = None
   /\ forall p, inside d p = true -> fs' !! p = None)
  /\ (let t := tempname dir (files (os st)) in
      let c := tempname dir (<[t := []]> (files (os st))) in
      let d := tempname dir (<[c := []]> (<[t := []]> (files (os st)))) in
      let fs' := files (os (snd (call_peaks external tempname sample_name dir st)))
      in
      fs' !! t = None /\ fs' !! c = None
      /\ forall p, inside d p = true -> fs' !! p = None).
Proof.
  split.
  - intros t c d fs'. eapply scratch_gone.
    unfold fs', bdgcmp. unfold bind at 1, modify_self. cbn [fst snd].
    rewrite NamedTemporaryFile_files. cbn [self os files spawned].
    rewrite NamedTemporaryFile_files. cbn [self os files spawned].
    rewrite TemporaryDirectory_files. cbn [self os files spawned].
    reflexivity.
  - intros t c d fs'. eapply scratch_gone.
    unfold fs', call_peaks.
    rewrite NamedTemporaryFile_files. cbn [self os files spawned].
    rewrite NamedTemporaryFile_files. cbn [self os files spawned].
    rewrite TemporaryDirectory_files. cbn [self os files spawned].
    reflexivity.
Qed.

End FurtherProperties.

(** ** The attributes of a new instance *)

Lemma init_attributes_fresh a w s :
  init_attributes a w = Ok s ->
  output_extensions s
  = expected_extensions (truthy (arg_control_bam a)) (arg_broad a)
  /\ buffers s = ∅ /\ cleans_up s = false /\ cleanup_prefix s = None.
Proof.
  intros Hs. unfold init_attributes in Hs.
  destruct (negb (truthy (arg_macs2_path a))); [discriminate |].
  destruct (parse_input (arg_treatment_bam a) w); [| discriminate].
  simpl in Hs.
  destruct (if truthy (arg_control_bam a)
            then rbind (parse_input (arg_control_bam a) w)
                   (fun b => Ok (Some b))
            else Ok None); [| discriminate].
  simpl in Hs. injection Hs as <-. auto.
Qed.

(** A closed, decidable fact by evaluation. *)
Ltac by_evaluation := apply (bool_decide_unpack _); vm_compute; exact I.

(** X12.  When the two checks pass and the inputs load, the output
    extensions have no repetition, and neither have the attribute names
    made of them, none of which is the name of an attribute the instance
    has of its own; the four extensions of every run are among them,
    ['control_lambda.bdg'] exactly when the control argument is true,
    the two broad extensions exactly in broad mode, and ['ppois.bdg'] is
    not.  No buffer is set, [cleans_up] is off and no prefix is
    recorded. *)
Theorem X12_new_instance_invariants a w s :
  init_attributes a w = Ok s ->
  NoDup (output_extensions s)
  /\ NoDup (map replace_dot (output_extensions s))
  /\ Forall (fun ext => replace_dot ext ∉ own_attributes) (output_extensions s)
  /\ Forall (fun ext => ext ∈ output_extensions s)
       ["peaks.xls"; "peaks.narrowPeak"; "summits.bed"; "treat_pileup.bdg"]
  /\ ("control_lambda.bdg" ∈ output_extensions s
      <-> truthy (arg_control_bam a) = true)
  /\ ("peaks.broadPeak" ∈ output_extensions s <-> arg_broad a = true)
  /\ ("peaks.gappedPeak" ∈ output_extensions s <-> arg_broad a = true)
  /\ ("ppois.bdg" ∉ output_extensions s)
  /\ buffers s = ∅ /\ cleans_up s = false /\ cleanup_prefix s = None.
Proof.
  intros Hs. destruct (init_attributes_fresh a w s Hs) as (-> & Hb & Hc & Hp).
  destruct (truthy (arg_control_bam a)), (arg_broad a);
    (split; [by_evaluation |]);
    (split; [by_evaluation |]);
    (split; [by_evaluation |]);
    (split; [by_evaluation |]);
    (split; [split; [ first [ reflexivity
                            | intros H; exfalso; revert H; by_evaluation ]
                    | first [ intros _; by_evaluation | discriminate ] ] |]);
    (split; [split; [ first [ reflexivity
                            | intros H; exfalso; revert H; by_evaluation ]
                    | first [ intros _; by_evaluation | discriminate ] ] |]);
    (split; [split; [ first [ reflexivity
                            | intros H; exfalso; revert H; by_evaluation ]
                    | first [ intros _; by_evaluation | discriminate ] ] |]);
    (split; [by_evaluation |]); auto.
Qed.

(** X13.  A control given as the path of an empty file counts as given
    for the outputs and as absent for the command line: the control
    lambda track is among the output extensions, while the stored control
    is empty and the operand for ['--control'] is the empty tuple. *)
Theorem X13_empty_control_file a w path s :
  arg_control_bam a = PyStr path ->
  path <> EmptyString ->
  files w !! path = Some [] ->
  init_attributes a w = Ok s ->
  "control_lambda.bdg" ∈ output_extensions s
  /\ control_bam s = Some []
  /\ has_control s = false
  /\ (forall control_name, control_args s control_name = Ok (PyTuple [])).
Proof.
  intros Hc Hne Hf Hs.
  assert (Ht : truthy (arg_control_bam a) = true).
  { rewrite Hc. simpl. apply negb_true_iff, String.eqb_neq. exact Hne. }
  destruct (init_attributes_fresh a w s Hs) as (Hoe & _).
  assert (Hcb : control_bam s = Some []).
  { unfold init_attributes in Hs.
    destruct (negb (truthy (arg_macs2_path a))); [discriminate |].
    destruct (parse_input (arg_treatment_bam a) w); [| discriminate].
    simpl in Hs. rewrite Ht in Hs. rewrite Hc in Hs.
    unfold parse_input in Hs. cbn [isinstance_bytes isinstance_str] in Hs.
    rewrite Hf in Hs. simpl in Hs. injection Hs as <-. reflexivity. }
  repeat apply conj.
  - rewrite Hoe, Ht. destruct (arg_broad a); by_evaluation.
  - exact Hcb.
  - unfold has_control. rewrite Hcb. reflexivity.
  - intros control_name. unfold control_args, has_control. rewrite Hcb.
    reflexivity.
Qed.

(** ** The sample name *)

Lemma basename_from_no_sep {A} (is_sep : A -> bool) l : forall acc,
  Forall (fun c => is_sep c = false) acc ->
  Forall (fun c => is_sep c = false) (basename_from is_sep acc l).
Proof.
  induction l as [| c l IH]; intros acc Hacc; simpl; [exact Hacc |].
  destruct (is_sep c) eqn:E.
  - apply IH. constructor.
  - apply IH. apply Forall_app. split; [exact Hacc |].
    constructor; [exact E | constructor].
Qed.

Lemma before_dot_chars s :
  Forall (fun c => Ascii.eqb c "." = false
                   /\ c ∈ list_ascii_of_string s)
         (list_ascii_of_string (before_dot s)).
Proof.
  induction s as [| c s IH]; simpl; [constructor |].
  destruct (Ascii.eqb c ".") eqn:E; simpl; [constructor |].
  constructor.
  - split; [exact E | left].
  - eapply Forall_impl; [exact IH |]. simpl. intros x [Hx Hin].
    split; [exact Hx | right; exact Hin].
Qed.

Lemma before_dot_split s :
  exists rest,
    s = before_dot s +:+ rest
    /\ (rest = EmptyString \/ exists rest', rest = String "." rest').
Proof.
  induction s as [| c s (rest & Hs & Hr)]; simpl.
  - exists EmptyString. auto.
  - destruct (Ascii.eqb c ".") eqn:E; simpl.
    + apply Ascii.eqb_eq in E. subst c. exists (String "." s). eauto.
    + exists rest. split; [rewrite Hs at 1; reflexivity | exact Hr].
Qed.

(** X14.  The sample name of the command line: a name that is given and
    not empty is kept.  Otherwise the name is what precedes the first dot
    of the base name of the treatment path: it holds no dot and no slash,
    the base name is the name alone or the name and a rest that begins
    with a dot, and it is empty when the base name begins with a dot. *)
Theorem X14_sample_name name treatment :
  (forall n, name = Some n -> n <> EmptyString ->
             resolve_name name treatment = n)
  /\ (name = None \/ name = Some EmptyString ->
      Forall (fun c => c <> "."%char /\ c <> "/"%char)
             (list_ascii_of_string (resolve_name name treatment))
      /\ (exists rest,
            basename_str treatment = resolve_name name treatment +:+ rest
            /\ (rest = EmptyString \/ exists rest', rest = String "." rest'))
      /\ (forall rest, basename_str treatment = String "." rest ->
                       resolve_name name treatment = EmptyString)).
Proof.
  split.
  - intros n -> Hn. unfold resolve_name.
    apply String.eqb_neq in Hn. rewrite Hn. reflexivity.
  - intros Hname.
    assert (Hr : resolve_name name treatment
                 = before_dot (basename_str treatment))
      by (destruct Hname as [-> | ->]; reflexivity).
    rewrite Hr. repeat apply conj.
    + pose proof (before_dot_chars (basename_str treatment)) as Hc.
      assert (Hb : Forall (fun c => Ascii.eqb c "/" = false)
                     (list_ascii_of_string (basename_str treatment))).
      { unfold basename_str. rewrite list_ascii_of_string_of_list_ascii.
        apply basename_from_no_sep. constructor. }
      eapply Forall_impl; [exact Hc |]. simpl. intros c [Hd Hin].
      split.
      * apply Ascii.eqb_neq. exact Hd.
      * apply Ascii.eqb_neq.
        rewrite Forall_forall in Hb. apply Hb. exact Hin.
    + apply before_dot_split.
    + intros rest ->. reflexivity.
Qed.

(** * The further properties at concrete inputs *)

(** The four extensions of the demonstration object name its buffers. *)
Lemma demo_peaks_buffers w ext :
  ext ∈ output_extensions demo_peaks ->
  exists b, fst (getattr (replace_dot ext) (State demo_peaks w)) = Ok b.
Proof.
  intros H. simpl in H.
  repeat (apply elem_of_cons in H as [-> | H]; [eexists; reflexivity |]).
  inversion H.
Qed.







(** X12 on the defaults. *)
Lemma X12_new_instance_witness :
  init_attributes demo_arguments demo_world = Ok demo_attributes
  /\ NoDup (output_extensions demo_attributes)
  /\ ("ppois.bdg" ∉ output_extensions demo_attributes).
Proof.
  pose proof (X12_new_instance_invariants demo_arguments demo_world
                demo_attributes eq_refl)
    as (Hn & _ & _ & _ & _ & _ & _ & Hp & _).
  repeat apply conj; [reflexivity | exact Hn | exact Hp].
Defined.

(** X13 on a control given as the path of an empty file. *)
Lemma X13_empty_control_file_witness :
  init_attributes demo_arguments_file_control demo_world_empty_control
  = Ok demo_attributes_file_control
  /\ "control_lambda.bdg" ∈ output_extensions demo_attributes_file_control
  /\ has_control demo_attributes_file_control = false.
Proof.
  assert (Hne : "control.bam" <> EmptyString) by discriminate.
  pose proof (X13_empty_control_file demo_arguments_file_control
                demo_world_empty_control "control.bam"
                demo_attributes_file_control eq_refl Hne eq_refl eq_refl)
    as (Hin & _ & Hc & _).
  repeat apply conj; [reflexivity | exact Hin | exact Hc].
Defined.
